(** * MMM-HoymilesPVMonitor: the history cycle of [dtu_data.py]

    A shallow embedding of [prune_old_entries] and of the body of [main]
    (day-change detection, night fallback, no-data fallback), followed by
    the properties of the rolling history that the module documents.

    Conventions of the embedding.
    - A history entry is a Python [dict] with string keys, as [json.load]
      returns it: a [gmap string value].  Values are numbers, strings and
      [None]; JSON arrays, nested objects and booleans are not modelled.
    - Numbers.  The script only compares numbers ([== 0], [<]) and copies
      them; it does no arithmetic on an entry.  A number is therefore an
      exact rational in canonical form ([Qc]), on which Leibniz equality
      is numeric equality, so [0] and [0.0] are the same value.  NaN and
      the infinities are not modelled.
    - A naive [datetime] is a point on a linear time line: the number of
      microseconds since day 0 of the proleptic Gregorian ordinal, so that
      [t / us_per_day] is [t.toordinal()].  The library's range limits
      (years 1..9999) are not modelled.
    - [datetime.strptime] and [strftime] belong to the Python library, not
      to the script.  The development is parametric in them (class
      [DatetimeFormat]); a concrete instance for ASCII input is given at
      the end and is only used to run the documented scenarios.
    - Exceptions are an error monad [except]; a [try ... except Exception:
      pass] is a computation in [option] whose [None] is discarded.
    - Files and the network are outside the embedding: [main] starts from
      the list [load_history] returned and ends with the list handed to
      [json.dump]; the answer of the DTU is an argument. *)

From Stdlib Require Import QArith Qcanon Ascii.
From stdpp Require Import gmap strings list fin_maps numbers.

Local Open Scope Z_scope.

(** ** Data model *)

Inductive value : Type :=
  | VNum (q : Qc)
  | VStr (s : string)
  | VNull.

#[global] Instance value_eq_dec : EqDecision value.
Proof. solve_decision. Defined.

Abbreviation entry := (gmap string value) (only parsing).

(** A naive datetime, in microseconds. *)
Definition datetime : Type := Z.

Definition us_per_hour : Z := 3600 * 1000000.
Definition us_per_day : Z := 24 * us_per_hour.

(** [timedelta(hours=h)] *)
Definition timedelta_hours (h : Z) : Z := h * us_per_hour.

(** [t.date()], as the ordinal of the day. *)
Definition date_of (t : datetime) : Z := t `div` us_per_day.

(** The two library functions the script calls with the format
    ["%Y-%m-%d %H:%M"].  [strptime s = None] stands for the [ValueError]
    the library raises on text that does not match. *)
Class DatetimeFormat : Type := {
  strptime : string → option datetime;
  strftime : datetime → string
}.

(** ** Exceptions *)

Inductive exn : Type := KeyError | TypeError.

Definition except (A : Type) : Type := (exn + A)%type.

Definition Raise {A : Type} (e : exn) : except A := inl e.
Definition Ok {A : Type} (x : A) : except A := inr x.

#[global] Instance except_ret : MRet except := λ A x, Ok x.
#[global] Instance except_bind : MBind except := λ A B f m,
  match m with
  | inl e => inl e
  | inr x => f x
  end.

(** ** Python operations on values and dicts *)

(** [d[k]] *)
Definition getitem (d : entry) (k : string) : except value :=
  match d !! k with
  | Some v => Ok v
  | None => Raise KeyError
  end.

(** [d.get(k, dflt)] *)
Definition get (d : entry) (k : string) (dflt : value) : value :=
  default dflt (d !! k).

(** [a == b]; never raises. *)
Definition py_eq (a b : value) : bool := bool_decide (a = b).

(** [a < b]: numbers by value, strings lexicographically, anything else
    is a [TypeError]. *)
Definition py_lt (a b : value) : except bool :=
  match a, b with
  | VNum x, VNum y => Ok (bool_decide (x < y)%Qc)
  | VStr s, VStr t => Ok (String.ltb s t)
  | _, _ => Raise TypeError
  end.

(** Truthiness of a variable that holds a dict or [None]: [if x:] takes
    the then-branch exactly when [x] is a non-empty dict, and [truthy x]
    is then that dict. *)
Definition truthy (x : option entry) : option entry :=
  match x with
  | Some d => if decide (d = ∅) then None else Some d
  | None => None
  end.

(** A dict literal with the four keys of an entry (lines 64-69, 159-164
    and 169-174 of the script). *)
Definition mk_entry (timestamp power energy_daily energy_total : value) : entry :=
  {[ "timestamp" := timestamp;
     "power" := power;
     "energy_daily" := energy_daily;
     "energy_total" := energy_total ]}.

(** What [get_dtu_data] returns on success (lines 64-69): a formatted
    timestamp, [round(power)] (an [int]) and the two energies rounded to
    two decimals.  The floating-point arithmetic that produces the three
    numbers is outside the embedding; they are taken as given. *)
Definition dtu_result (timestamp : string) (power : Z)
    (energy_daily energy_total : Qc) : entry :=
  mk_entry (VStr timestamp) (VNum (Qc_of_Z power))
           (VNum energy_daily) (VNum energy_total).

Section Cycle.
Context `{DatetimeFormat}.

(** [datetime.strptime(entry["timestamp"], "%Y-%m-%d %H:%M")] inside a
    [try]: [None] when the key is missing ([KeyError]), the value is not a
    string ([TypeError]) or the text does not parse ([ValueError]). *)
Definition parse_timestamp (e : entry) : option datetime :=
  match e !! "timestamp" with
  | Some (VStr s) => strptime s
  | _ => None
  end.

(** [prune_old_entries] (lines 93-109).  [now] is the clock reading taken
    at line 98. *)
Definition prune_old_entries (now : datetime) (history : list entry) : list entry :=
  let cutoff := now - timedelta_hours 24 in
  fold_left
    (λ pruned entry,
       match parse_timestamp entry with
       | Some entry_time =>
           if bool_decide (entry_time > cutoff) then pruned ++ [entry] else pruned
       | None => pruned
       end)
    history [].

(** Lines 121-126 of [main]: the date of the last entry, if any. *)
Definition last_date_of (last_entry : option entry) : option Z :=
  match truthy last_entry with
  | Some last_entry => date_of <$> parse_timestamp last_entry
  | None => None
  end.

(** Line 129 of [main]. *)
Definition is_new_day (last_entry : option entry) (now : datetime) : bool :=
  match last_date_of last_entry with
  | Some last_date => bool_decide (date_of now ≠ last_date)
  | None => false
  end.

(** Lines 131-176 of [main]: the entry appended to the history, or the
    exception that ends the run. *)
Definition reconcile (result last_entry : option entry) (new_day : bool)
    (now : datetime) : except entry :=
  match truthy result with
  | Some result =>
      result ←
        (if new_day then
           let result := <["energy_daily" := VNum 0%Qc]> result in
           match truthy last_entry with
           | Some last_entry =>
               dflt ← getitem result "energy_total";
               mret (<["energy_total" := get last_entry "energy_total" dflt]> result)
           | None => mret result
           end
         else
           if py_eq (get result "power" (VNum 0%Qc)) (VNum 0%Qc) then
             match truthy last_entry with
             | Some last_entry =>
                 let result :=
                   if py_eq (get result "energy_daily" (VNum 0%Qc)) (VNum 0%Qc)
                   then <["energy_daily" := get last_entry "energy_daily" (VNum 0%Qc)]> result
                   else result in
                 lower ← py_lt (get result "energy_total" (VNum 0%Qc))
                               (get last_entry "energy_total" (VNum 0%Qc));
                 mret (if lower : bool
                       then <["energy_total" :=
                                get last_entry "energy_total"
                                    (get result "energy_total" VNull)]> result
                       else result)
             | None => mret result
             end
           else mret result);
      (* line 150 formats result['timestamp'] *)
      _ ← getitem result "timestamp";
      mret result
  | None =>
      let timestamp := VStr (strftime now) in
      match truthy last_entry with
      | Some last_entry =>
          let fallback_daily :=
            if new_day then VNum 0%Qc
            else get last_entry "energy_daily" (VNum 0%Qc) in
          let fallback_total := get last_entry "energy_total" (VNum 0%Qc) in
          mret (mk_entry timestamp (VNum 0%Qc) fallback_daily fallback_total)
      | None =>
          mret (mk_entry timestamp (VNum 0%Qc) (VNum 0%Qc) (VNum 0%Qc))
      end
  end.

(** [main] (lines 113-183) from the loaded history to the history that is
    written back.  [now0] is the clock reading inside [prune_old_entries],
    [now] the one at line 117, [result] what [get_dtu_data] returned. *)
Definition main (history : list entry) (now0 now : datetime)
    (result : option entry) : except (list entry) :=
  let history := prune_old_entries now0 history in
  let last_entry := list.last history in
  let new_day := is_new_day last_entry now in
  entry ← reconcile result last_entry new_day now;
  mret (history ++ [entry]).

End Cycle.

(** ** A model of the library's parser and formatter

    The behaviour of [datetime.strptime] and [strftime] for the format
    ["%Y-%m-%d %H:%M"] on ASCII text, following CPython's [_strptime]
    patterns and [datetime]'s ordinal arithmetic.  Nothing proved about
    the cycle depends on it: it instantiates [DatetimeFormat] so that the
    documented scenarios can be evaluated. *)
Module PyDatetime.

Definition is_leap (y : Z) : bool :=
  (y `mod` 4 =? 0) && (negb (y `mod` 100 =? 0) || (y `mod` 400 =? 0)).

Definition days_in_month (y m : Z) : Z :=
  if m =? 2 then (if is_leap y then 29 else 28)
  else if (m =? 4) || (m =? 6) || (m =? 9) || (m =? 11) then 30
  else 31.

Definition days_before_year (y : Z) : Z :=
  let y := y - 1 in y * 365 + y `div` 4 - y `div` 100 + y `div` 400.

Definition days_before_month (y m : Z) : Z :=
  List.nth (Z.to_nat m) [0; 0; 31; 59; 90; 120; 151; 181; 212; 243; 273; 304; 334] 0
  + (if (2 <? m) && is_leap y then 1 else 0).

Definition ymd2ord (y m d : Z) : Z :=
  days_before_year y + days_before_month y m + d.

(** [datetime(y, m, d, hh, mm)] *)
Definition mk_datetime (y m d hh mm : Z) : datetime :=
  ymd2ord y m d * us_per_day + (hh * 60 + mm) * 60000000.

Definition ord2ymd (n : Z) : Z * Z * Z :=
  let n := n - 1 in
  let n400 := n `div` 146097 in
  let n := n `mod` 146097 in
  let year := n400 * 400 + 1 in
  let n100 := n `div` 36524 in
  let n := n `mod` 36524 in
  let n4 := n `div` 1461 in
  let n := n `mod` 1461 in
  let n1 := n `div` 365 in
  let n := n `mod` 365 in
  let year := year + n100 * 100 + n4 * 4 + n1 in
  if (n1 =? 4) || (n100 =? 4) then (year - 1, 12, 31)
  else
    let leapyear := (n1 =? 3) && (negb (n4 =? 24) || (n100 =? 3)) in
    let month := (n + 50) `div` 32 in
    let preceding :=
      List.nth (Z.to_nat month)
        [0; 0; 31; 59; 90; 120; 151; 181; 212; 243; 273; 304; 334] 0
      + (if (2 <? month) && leapyear then 1 else 0) in
    if n <? preceding then
      let month := month - 1 in
      let preceding := preceding - days_in_month year month in
      (year, month, n - preceding + 1)
    else (year, month, n - preceding + 1).

Definition digit_char (d : Z) : ascii := ascii_of_N (Z.to_N (48 + d `mod` 10)).

Definition pad2 (n : Z) : string :=
  String (digit_char (n `div` 10)) (String (digit_char n) EmptyString).

Definition pad4 (n : Z) : string :=
  String (digit_char (n `div` 1000)) (String (digit_char (n `div` 100)) (pad2 n)).

(** [t.strftime("%Y-%m-%d %H:%M")] *)
Definition strftime_ascii (t : datetime) : string :=
  let '(y, m, d) := ord2ymd (t `div` us_per_day) in
  let tod := t `mod` us_per_day in
  (pad4 y +:+ "-" +:+ pad2 m +:+ "-" +:+ pad2 d +:+ " "
   +:+ pad2 (tod `div` us_per_hour) +:+ ":" +:+ pad2 ((tod `div` 60000000) `mod` 60))%string.

Definition digit (c : ascii) : option Z :=
  let n := Z.of_N (N_of_ascii c) in
  if bool_decide (48 ≤ n ≤ 57) then Some (n - 48) else None.

Definition is_space (c : ascii) : bool :=
  let n := Z.of_N (N_of_ascii c) in
  bool_decide (9 ≤ n ≤ 13 ∨ 28 ≤ n ≤ 32).

Definition expect (c : ascii) (s : string) : option string :=
  match s with
  | String a rest => if decide (a = c) then Some rest else None
  | EmptyString => None
  end.

(** A group of one or two digits; the two-digit alternatives come first
    in each pattern, the one-digit alternative last. *)
Definition digits12 (two : Z → Z → bool) (one : Z → bool) (s : string)
    : option (Z * string) :=
  match s with
  | String a rest =>
      x ← digit a;
      let single := if one x then Some (x, rest) else None in
      match rest with
      | String b rest' =>
          match digit b with
          | Some y => if two x y then Some (10 * x + y, rest') else single
          | None => single
          end
      | EmptyString => single
      end
  | EmptyString => None
  end.

(** [%Y]: [\d\d\d\d] *)
Definition p_year (s : string) : option (Z * string) :=
  match s with
  | String a (String b (String c (String d rest))) =>
      a ← digit a; b ← digit b; c ← digit c; d ← digit d;
      Some (1000 * a + 100 * b + 10 * c + d, rest)
  | _ => None
  end.

(** [%m]: [1[0-2]|0[1-9]|[1-9]] *)
Definition p_month : string → option (Z * string) :=
  digits12 (λ x y, (x =? 1) && (y <=? 2) || (x =? 0) && (1 <=? y)) (λ x, 1 <=? x).

(** [%d]: [3[0-1]|[1-2]\d|0[1-9]|[1-9]| [1-9]] *)
Definition p_day (s : string) : option (Z * string) :=
  match digits12 (λ x y, (x =? 3) && (y <=? 1) || (1 <=? x) && (x <=? 2)
                         || (x =? 0) && (1 <=? y))
                 (λ x, 1 <=? x) s with
  | Some r => Some r
  | None =>
      match s with
      | String " " (String a rest) =>
          x ← digit a; if 1 <=? x then Some (x, rest) else None
      | _ => None
      end
  end.

(** [%H]: [2[0-3]|[0-1]\d|\d] *)
Definition p_hour : string → option (Z * string) :=
  digits12 (λ x y, (x =? 2) && (y <=? 3) || (x <=? 1)) (λ _, true).

(** [%M]: [[0-5]\d|\d] *)
Definition p_minute : string → option (Z * string) :=
  digits12 (λ x _, x <=? 5) (λ _, true).

Fixpoint skip_spaces (s : string) : string :=
  match s with
  | String c rest => if is_space c then skip_spaces rest else s
  | EmptyString => EmptyString
  end.

(** The blank of the format: [\s+] *)
Definition p_spaces (s : string) : option string :=
  match s with
  | String c rest => if is_space c then Some (skip_spaces rest) else None
  | EmptyString => None
  end.

(** [datetime.strptime(s, "%Y-%m-%d %H:%M")]; [None] is [ValueError]. *)
Definition strptime_ascii (s : string) : option datetime :=
  '(y, s) ← p_year s;
  s ← expect "-" s;
  '(m, s) ← p_month s;
  s ← expect "-" s;
  '(d, s) ← p_day s;
  s ← p_spaces s;
  '(hh, s) ← p_hour s;
  s ← expect ":" s;
  '(mm, s) ← p_minute s;
  if decide (s = EmptyString) then
    if bool_decide (1 ≤ y ∧ d ≤ days_in_month y m)
    then Some (mk_datetime y m d hh mm)
    else None
  else None.

Definition format : DatetimeFormat :=
  {| strptime := strptime_ascii; strftime := strftime_ascii |}.

End PyDatetime.

(** ** Specification-side notions *)

Section Notions.
Context `{DatetimeFormat}.

(** The entry's timestamp is a string that parses to the instant [t]. *)
Definition timestamp_parses (e : entry) (t : datetime) : Prop :=
  ∃ s, e !! "timestamp" = Some (VStr s) ∧ strptime s = Some t.

(** The entry's timestamp parses and lies strictly after [now] minus 24
    hours. *)
Definition in_window (now : datetime) (e : entry) : Prop :=
  ∃ t, timestamp_parses e t ∧ now - timedelta_hours 24 < t.

#[global] Instance in_window_dec (now : datetime) (e : entry) :
  Decision (in_window now e).
Proof.
  unfold in_window, timestamp_parses.
  destruct (e !! "timestamp") as [[q|s|]|];
    try (right; intros (t & (s' & Hs' & _) & _); discriminate).
  destruct (strptime s) as [t|] eqn:E.
  - destruct (decide (now - timedelta_hours 24 < t)) as [Hlt|Hge].
    + left. exists t. split; [by exists s | exact Hlt].
    + right. intros (t' & (s' & Hs' & Ht') & Hlt). congruence.
  - right. intros (t' & (s' & Hs' & Ht') & _). congruence.
Defined.

End Notions.

(** The property of a run's outcome that total energy is concerned with:
    the run appends an entry whose total is a number not below [tl]. *)
Definition total_not_below (tl : Qc) (r : except entry) : Prop :=
  ∃ e tn, r = Ok e ∧ e !! "energy_total" = Some (VNum tn) ∧ (tl ≤ tn)%Qc.

Definition is_num (v : value) : Prop := ∃ q, v = VNum q.

(** A last entry with the value 0 written into whichever of the two
    energy fields it lacks. *)
Definition with_defaults (le : entry) : entry :=
  <["energy_daily" := get le "energy_daily" (VNum 0%Qc)]>
    (<["energy_total" := get le "energy_total" (VNum 0%Qc)]> le).

(** ** The documented scenarios *)
Module Scenario.

(** A number with two decimals. *)
Definition hundredths (n : Z) : Qc := Q2Qc (n # 100).

(** Scenario A: the first read after midnight. *)
Definition last_A : entry :=
  mk_entry (VStr "2024-06-01 23:58") (VNum 0%Qc)
           (VNum (hundredths 1230)) (VNum (hundredths 450)).
Definition sample_A : entry :=
  dtu_result "2024-06-02 00:02" 5 (hundredths 10) (hundredths 450).
Definition now_A : datetime := PyDatetime.mk_datetime 2024 6 2 0 2 + 30000000.

(** Scenario B: the source is off and reports a lower total. *)
Definition last_B : entry :=
  mk_entry (VStr "2024-06-01 21:40") (VNum 0%Qc)
           (VNum (hundredths 1230)) (VNum (hundredths 450)).
Definition sample_B : entry :=
  dtu_result "2024-06-01 21:45" 0 0%Qc (hundredths 449).
Definition now_B : datetime := PyDatetime.mk_datetime 2024 6 1 21 45 + 12000000.

(** Scenario C: no sample, a last entry of the same day. *)
Definition last_C : entry :=
  mk_entry (VStr "2024-06-01 21:40") (VNum 0%Qc)
           (VNum (hundredths 800)) (VNum (hundredths 320)).

(** A producing inverter whose reported total dips below the recorded
    one. *)
Definition last_dip : entry :=
  mk_entry (VStr "2024-06-01 12:00") (VNum (Qc_of_Z 3000))
           (VNum (hundredths 800)) (VNum (hundredths 450)).
Definition sample_dip : entry :=
  dtu_result "2024-06-01 12:05" 5 (hundredths 810) (hundredths 449).
Definition now_dip : datetime := PyDatetime.mk_datetime 2024 6 1 12 5 + 7000000.

(** The same dip at dusk, with one watt still produced. *)
Definition last_dusk : entry :=
  mk_entry (VStr "2024-06-01 21:10") (VNum (Qc_of_Z 2))
           (VNum (hundredths 1230)) (VNum (hundredths 450)).
Definition sample_dusk : entry :=
  dtu_result "2024-06-01 21:15" 1 (hundredths 1230) (hundredths 449).
Definition now_dusk : datetime := PyDatetime.mk_datetime 2024 6 1 21 15 + 3000000.

(** A last entry whose timestamp is not in the format. *)
Definition last_garbled : entry :=
  mk_entry (VStr "yesterday") (VNum 0%Qc)
           (VNum (hundredths 800)) (VNum (hundredths 320)).

(** A last entry written without its energy fields. *)
Definition last_bare : entry :=
  {[ "timestamp" := VStr "2024-06-01 21:40"; "power" := VNum 0%Qc ]}.

End Scenario.

(** ** Notions for the cycle as a whole *)

(** What [asyncio.run(get_dtu_data(args.ip))] is at line 118: [None], or
    the dict built at lines 64-69. *)
Definition from_dtu (result : option entry) : Prop :=
  result = None ∨ ∃ ts p d t, result = Some (dtu_result ts p d t).

(** An entry as the script itself writes it: the four keys, a string
    timestamp and three numbers. *)
Definition complete (e : entry) : Prop :=
  ∃ ts p d t, e = mk_entry (VStr ts) (VNum p) (VNum d) (VNum t).

(** The keys of a written entry. *)
Definition entry_keys : gset string :=
  {[ "timestamp"; "power"; "energy_daily"; "energy_total" ]}.

(** Further inputs on which the properties of the whole cycle are run. *)
Module Cases.

(** Two days after Scenario A's last entry. *)
Definition now_late : datetime := PyDatetime.mk_datetime 2024 6 3 23 59.

(** A last entry whose total was stored as a string. *)
Definition last_text_total : entry :=
  mk_entry (VStr "2024-06-01 21:40") (VNum 0%Qc)
           (VNum (Scenario.hundredths 800)) (VStr "3.2").

(** A producing sample that reports no daily energy yet. *)
Definition sample_dawn : entry :=
  dtu_result "2024-06-01 21:45" 12 0%Qc (Scenario.hundredths 450).

End Cases.

(** * Properties *)

Section Basics.
Context `{DatetimeFormat}.

Lemma parse_timestamp_Some (e : entry) (t : datetime) :
  parse_timestamp e = Some t ↔ timestamp_parses e t.
Proof.
  unfold parse_timestamp, timestamp_parses. split.
  - destruct (e !! "timestamp") as [[q|s|]|] eqn:E; try discriminate.
    intros Hs. by exists s.
  - intros (s & -> & Hs). exact Hs.
Qed.

(** The loop of [prune_old_entries], started on any accumulator. *)
Lemma prune_loop_filter (cutoff_now : datetime) (history pruned : list entry) :
  fold_left
    (λ pruned entry,
       match parse_timestamp entry with
       | Some entry_time =>
           if bool_decide (entry_time > cutoff_now - timedelta_hours 24)
           then pruned ++ [entry] else pruned
       | None => pruned
       end)
    history pruned
  = pruned ++ filter (in_window cutoff_now) history.
Proof.
  revert pruned. induction history as [|e history IH]; intros pruned; simpl.
  - by rewrite app_nil_r.
  - rewrite IH, filter_cons. destruct (decide (in_window cutoff_now e)) as [Hin|Hout].
    + destruct Hin as (t & Ht & Hlt). apply parse_timestamp_Some in Ht.
      rewrite Ht, bool_decide_eq_true_2 by lia. by rewrite <- app_assoc.
    + destruct (parse_timestamp e) as [t|] eqn:E; [|done].
      case_bool_decide as Hgt; [|done].
      exfalso. apply Hout. exists t. split; [by apply parse_timestamp_Some | lia].
Qed.

Lemma prune_old_entries_filter (now : datetime) (history : list entry) :
  prune_old_entries now history = filter (in_window now) history.
Proof. unfold prune_old_entries. by rewrite prune_loop_filter. Qed.

End Basics.

Section Dicts.

Lemma mk_entry_timestamp (ts p d t : value) :
  mk_entry ts p d t !! "timestamp" = Some ts.
Proof. unfold mk_entry. by simplify_map_eq. Qed.

Lemma mk_entry_power (ts p d t : value) :
  mk_entry ts p d t !! "power" = Some p.
Proof. unfold mk_entry. by simplify_map_eq. Qed.

Lemma mk_entry_energy_daily (ts p d t : value) :
  mk_entry ts p d t !! "energy_daily" = Some d.
Proof. unfold mk_entry. by simplify_map_eq. Qed.

Lemma mk_entry_energy_total (ts p d t : value) :
  mk_entry ts p d t !! "energy_total" = Some t.
Proof. unfold mk_entry. by simplify_map_eq. Qed.

Lemma mk_entry_nonempty (ts p d t : value) : mk_entry ts p d t ≠ ∅.
Proof. unfold mk_entry. apply insert_non_empty. Qed.

(** Two dict literals are equal when they agree at every key. *)
Ltac dict_eq :=
  apply map_eq; intros ?; unfold mk_entry;
  rewrite ?lookup_insert, ?lookup_singleton;
  repeat (case_decide; subst; try done).

Lemma set_energy_daily (ts p d t v : value) :
  <["energy_daily" := v]> (mk_entry ts p d t) = mk_entry ts p v t.
Proof. dict_eq. Qed.

Lemma set_energy_total (ts p d t v : value) :
  <["energy_total" := v]> (mk_entry ts p d t) = mk_entry ts p d v.
Proof. dict_eq. Qed.

End Dicts.

Section Operations.

Lemma truthy_nonempty (d : entry) : d ≠ ∅ → truthy (Some d) = Some d.
Proof. intros Hd. unfold truthy. by rewrite decide_False. Qed.

Lemma truthy_Some (x : option entry) (d : entry) :
  truthy x = Some d ↔ x = Some d ∧ d ≠ ∅.
Proof.
  unfold truthy. destruct x as [d'|].
  - case_decide; split; try done.
    + intros [[= ->] Hne]. contradiction.
    + intros [= ->]. by split.
    + by intros [[= ->] _].
  - split; [done | by intros [? _]].
Qed.

Lemma truthy_mk_entry (ts p d t : value) :
  truthy (Some (mk_entry ts p d t)) = Some (mk_entry ts p d t).
Proof. apply truthy_nonempty, mk_entry_nonempty. Qed.

Lemma get_mk_entry_power (ts p d t dflt : value) :
  get (mk_entry ts p d t) "power" dflt = p.
Proof. unfold get. by rewrite mk_entry_power. Qed.

Lemma get_mk_entry_energy_daily (ts p d t dflt : value) :
  get (mk_entry ts p d t) "energy_daily" dflt = d.
Proof. unfold get. by rewrite mk_entry_energy_daily. Qed.

Lemma get_mk_entry_energy_total (ts p d t dflt : value) :
  get (mk_entry ts p d t) "energy_total" dflt = t.
Proof. unfold get. by rewrite mk_entry_energy_total. Qed.

Lemma getitem_mk_entry_timestamp (ts p d t : value) :
  getitem (mk_entry ts p d t) "timestamp" = Ok ts.
Proof. unfold getitem. by rewrite mk_entry_timestamp. Qed.

Lemma getitem_mk_entry_energy_total (ts p d t : value) :
  getitem (mk_entry ts p d t) "energy_total" = Ok t.
Proof. unfold getitem. by rewrite mk_entry_energy_total. Qed.

Lemma get_present (d : entry) (k : string) (v dflt : value) :
  d !! k = Some v → get d k dflt = v.
Proof. unfold get. by intros ->. Qed.

Lemma get_missing (d : entry) (k : string) (dflt : value) :
  d !! k = None → get d k dflt = dflt.
Proof. unfold get. by intros ->. Qed.

Lemma py_eq_num (x y : Qc) : py_eq (VNum x) (VNum y) = bool_decide (x = y).
Proof. unfold py_eq. apply bool_decide_ext. naive_solver. Qed.

Lemma py_eq_power_zero (p : Z) :
  py_eq (VNum (Qc_of_Z p)) (VNum 0%Qc) = bool_decide (p = 0).
Proof.
  rewrite py_eq_num. apply bool_decide_ext.
  rewrite <- Z2Qc_inj_0. apply Z2Qc_inj_iff.
Qed.

End Operations.

Create Rewrite HintDb dict.
#[local] Hint Rewrite truthy_mk_entry get_mk_entry_power get_mk_entry_energy_daily
  get_mk_entry_energy_total getitem_mk_entry_timestamp
  getitem_mk_entry_energy_total set_energy_daily set_energy_total
  py_eq_num py_eq_power_zero : dict.

Section Reconcile.
Context `{DatetimeFormat}.

(** New day, a sample and a last entry (lines 133-138). *)
Lemma reconcile_new_day (ts : string) (p : Z) (d t : Qc) (le : entry) (now : datetime) :
  le ≠ ∅ →
  reconcile (Some (dtu_result ts p d t)) (Some le) true now
  = Ok (mk_entry (VStr ts) (VNum (Qc_of_Z p)) (VNum 0%Qc)
                 (get le "energy_total" (VNum t))).
Proof.
  intros Hle. unfold reconcile, dtu_result.
  rewrite (truthy_nonempty le Hle). autorewrite with dict. simpl.
  by autorewrite with dict.
Qed.

(** New day, a sample and no last entry. *)
Lemma reconcile_new_day_no_last (ts : string) (p : Z) (d t : Qc)
    (last_entry : option entry) (now : datetime) :
  truthy last_entry = None →
  reconcile (Some (dtu_result ts p d t)) last_entry true now
  = Ok (dtu_result ts p 0%Qc t).
Proof.
  intros Hle. unfold reconcile, dtu_result. rewrite Hle.
  autorewrite with dict. simpl. by autorewrite with dict.
Qed.

(** Same day, a sample with nonzero power: recorded as reported. *)
Lemma reconcile_producing (ts : string) (p : Z) (d t : Qc)
    (last_entry : option entry) (now : datetime) :
  p ≠ 0 →
  reconcile (Some (dtu_result ts p d t)) last_entry false now
  = Ok (dtu_result ts p d t).
Proof.
  intros Hp. unfold reconcile, dtu_result. autorewrite with dict.
  rewrite bool_decide_eq_false_2 by done. simpl. by autorewrite with dict.
Qed.

(** Same day, a sample with power 0 and no last entry. *)
Lemma reconcile_night_no_last (ts : string) (d t : Qc)
    (last_entry : option entry) (now : datetime) :
  truthy last_entry = None →
  reconcile (Some (dtu_result ts 0 d t)) last_entry false now
  = Ok (dtu_result ts 0 d t).
Proof.
  intros Hle. unfold reconcile, dtu_result. autorewrite with dict.
  rewrite bool_decide_eq_true_2 by done. rewrite Hle. simpl.
  by autorewrite with dict.
Qed.

(** Same day, a sample with power 0 and a last entry whose total, read
    with default 0, is the number [tl] (lines 143-147). *)
Lemma reconcile_night (ts : string) (d t tl : Qc) (le : entry) (now : datetime) :
  le ≠ ∅ →
  get le "energy_total" (VNum 0%Qc) = VNum tl →
  reconcile (Some (dtu_result ts 0 d t)) (Some le) false now
  = Ok (mk_entry (VStr ts) (VNum 0%Qc)
          (if bool_decide (d = 0%Qc)
           then get le "energy_daily" (VNum 0%Qc) else VNum d)
          (if bool_decide (t < tl)%Qc
           then get le "energy_total" (VNum t) else VNum t)).
Proof.
  intros Hle Htl. unfold reconcile, dtu_result. autorewrite with dict.
  rewrite bool_decide_eq_true_2 by done. rewrite (truthy_nonempty le Hle).
  rewrite Z2Qc_inj_0.
  destruct (bool_decide (d = 0%Qc)); autorewrite with dict;
    rewrite Htl; simpl;
    destruct (bool_decide (t < tl)%Qc); simpl; by autorewrite with dict.
Qed.

(** No sample, a last entry (lines 155-166). *)
Lemma reconcile_no_data (result : option entry) (le : entry) (new_day : bool)
    (now : datetime) :
  truthy result = None →
  le ≠ ∅ →
  reconcile result (Some le) new_day now
  = Ok (mk_entry (VStr (strftime now)) (VNum 0%Qc)
          (if new_day then VNum 0%Qc else get le "energy_daily" (VNum 0%Qc))
          (get le "energy_total" (VNum 0%Qc))).
Proof.
  intros Hr Hle. unfold reconcile. by rewrite Hr, (truthy_nonempty le Hle).
Qed.

(** No sample and no last entry (lines 167-176). *)
Lemma reconcile_cold_start (result last_entry : option entry) (new_day : bool)
    (now : datetime) :
  truthy result = None →
  truthy last_entry = None →
  reconcile result last_entry new_day now
  = Ok (mk_entry (VStr (strftime now)) (VNum 0%Qc) (VNum 0%Qc) (VNum 0%Qc)).
Proof. intros Hr Hle. unfold reconcile. by rewrite Hr, Hle. Qed.

End Reconcile.

(** ** Pruning and day change *)

Section Pruning.
Context `{DatetimeFormat}.

(** C6.  For every history and every clock reading, [prune_old_entries]
    returns exactly the entries whose timestamp parses and lies strictly
    after [now] minus 24 hours, in their original order; an entry whose
    timestamp is missing, not a string or unparsable is dropped, and the
    function returns normally on every input. *)
Theorem prune_old_entries_spec (now : datetime) (history : list entry) :
  prune_old_entries now history = filter (in_window now) history.
Proof. apply prune_old_entries_filter. Qed.

(** C9.  Pruning twice with the same clock reading is the same as pruning
    once. *)
Theorem prune_old_entries_idempotent (now : datetime) (history : list entry) :
  prune_old_entries now (prune_old_entries now history)
  = prune_old_entries now history.
Proof.
  rewrite !prune_old_entries_filter.
  by apply list_filter_filter_r.
Qed.

(** Retention: whatever survives pruning lies inside the window. *)
Lemma prune_old_entries_retention (now : datetime) (history : list entry) (e : entry) :
  e ∈ prune_old_entries now history → e ∈ history ∧ in_window now e.
Proof.
  rewrite prune_old_entries_filter, list_elem_of_filter. tauto.
Qed.

Lemma prune_old_entries_sublist (now : datetime) (history : list entry) :
  sublist (prune_old_entries now history) history.
Proof. rewrite prune_old_entries_filter. apply sublist_filter. Qed.

(** After pruning, the last entry, if any, is a non-empty dict with a
    parsable timestamp. *)
Lemma last_pruned_truthy (now : datetime) (history : list entry) (le : entry) :
  list.last (prune_old_entries now history) = Some le →
  truthy (Some le) = Some le ∧ ∃ t, timestamp_parses le t.
Proof.
  intros Hlast.
  assert (le ∈ prune_old_entries now history) as Hin
    by (by apply last_Some_elem_of).
  apply prune_old_entries_retention in Hin as [_ (t & Ht & _)].
  split; [|by exists t].
  apply truthy_nonempty. intros ->. destruct Ht as (s & Hs & _).
  by rewrite lookup_empty in Hs.
Qed.

(** C8.  [is_new_day] is true exactly when a last entry exists, its
    timestamp parses, and the date it parses to differs from the date of
    [now]; it is false without a last entry and false when the last
    entry's timestamp does not parse. *)
Theorem is_new_day_spec (last_entry : option entry) (now : datetime) :
  (is_new_day last_entry now = true
   ↔ ∃ e t, last_entry = Some e ∧ timestamp_parses e t ∧ date_of t ≠ date_of now)
  ∧ is_new_day None now = false
  ∧ (∀ e, (¬ ∃ t, timestamp_parses e t) → is_new_day (Some e) now = false).
Proof.
  split; [|split].
  - unfold is_new_day, last_date_of. split.
    + destruct (truthy last_entry) as [le|] eqn:Hle; [|done].
      apply truthy_Some in Hle as [-> _].
      destruct (parse_timestamp le) as [t|] eqn:Ht; [|done]. simpl.
      intros Hd%bool_decide_eq_true. exists le, t.
      split; [done|]. split; [by apply parse_timestamp_Some | congruence].
    + intros (e & t & -> & Ht & Hd).
      assert (e ≠ ∅) as Hne.
      { intros ->. destruct Ht as (s & Hs & _). by rewrite lookup_empty in Hs. }
      rewrite (truthy_nonempty e Hne).
      apply parse_timestamp_Some in Ht. rewrite Ht. simpl.
      apply bool_decide_eq_true. congruence.
  - reflexivity.
  - intros e Hno. unfold is_new_day, last_date_of.
    destruct (truthy (Some e)) as [le|] eqn:Hle; [|done].
    apply truthy_Some in Hle as [[= <-] _].
    destruct (parse_timestamp e) as [t|] eqn:Ht; [|done].
    exfalso. apply Hno. exists t. by apply parse_timestamp_Some.
Qed.

End Pruning.

(** ** The entry a cycle appends *)

Section Reconciliation.
Context `{DatetimeFormat}.
Import Scenario.

Lemma lookup_nonempty (le : entry) (k : string) (v : value) :
  le !! k = Some v → le ≠ ∅.
Proof. intros Hk ->. by rewrite lookup_empty in Hk. Qed.

Lemma total_not_below_mk_entry (tl tn : Qc) (ts p d : value) :
  (tl ≤ tn)%Qc → total_not_below tl (Ok (mk_entry ts p d (VNum tn))).
Proof.
  intros Hle. exists (mk_entry ts p d (VNum tn)), tn.
  split; [done|]. split; [apply mk_entry_energy_total | done].
Qed.

(** C1 (amended).  In a cycle with a prior entry whose total is the
    number [tl], the appended entry's total is not below [tl] when the
    sample is absent, when it is a new day, when the sample's power is 0,
    or when the sample's own total is not below [tl].  (A sample with
    nonzero power on the same day is recorded as reported.) *)
Theorem total_energy_monotone_when_guarded (result : option entry) (le : entry)
    (tl : Qc) (new_day : bool) (now : datetime) :
  le !! "energy_total" = Some (VNum tl) →
  result = None
  ∨ (∃ ts p d t, result = Some (dtu_result ts p d t)
                 ∧ (new_day = true ∨ p = 0 ∨ (tl ≤ t)%Qc)) →
  total_not_below tl (reconcile result (Some le) new_day now).
Proof.
  intros Htl Hres.
  pose proof (lookup_nonempty _ _ _ Htl) as Hne.
  destruct Hres as [-> | (ts & p & d & t & -> & Hguard)].
  - rewrite reconcile_no_data by done.
    rewrite (get_present le _ _ _ Htl). by apply total_not_below_mk_entry.
  - destruct new_day.
    + rewrite reconcile_new_day by done.
      rewrite (get_present le _ _ _ Htl). by apply total_not_below_mk_entry.
    + destruct (decide (p = 0)) as [-> | Hp].
      * rewrite (reconcile_night ts d t tl le now Hne (get_present le _ _ _ Htl)).
        destruct (decide (t < tl)%Qc) as [Hlt | Hge].
        -- rewrite (bool_decide_eq_true_2 _ Hlt), (get_present le _ _ _ Htl).
           by apply total_not_below_mk_entry.
        -- rewrite (bool_decide_eq_false_2 _ Hge).
           apply total_not_below_mk_entry. by apply Qcle_ngt.
      * rewrite reconcile_producing by done.
        destruct Hguard as [? | [? | Hge]]; [done | done |].
        by apply total_not_below_mk_entry.
Qed.

(** C2 (amended).  On a same-day cycle with a last entry whose total is
    the number [tl], a sample with power 0 whose total is strictly below
    [tl] is appended with total [tl], whatever daily energy the sample
    reports. *)
Theorem regression_carried_at_zero_power (ts : string) (d t tl : Qc) (le : entry)
    (now : datetime) :
  le !! "energy_total" = Some (VNum tl) →
  (t < tl)%Qc →
  ∃ e, reconcile (Some (dtu_result ts 0 d t)) (Some le) false now = Ok e
       ∧ e !! "energy_total" = Some (VNum tl)
       ∧ e !! "power" = Some (VNum 0%Qc).
Proof.
  intros Htl Hlt.
  pose proof (lookup_nonempty _ _ _ Htl) as Hne.
  rewrite (reconcile_night ts d t tl le now Hne (get_present le _ _ _ Htl)).
  rewrite (bool_decide_eq_true_2 _ Hlt), (get_present le _ _ _ Htl).
  eexists. split; [done|].
  by rewrite mk_entry_energy_total, mk_entry_power.
Qed.

(** C3.  On a same-day cycle, a sample with power 0 and daily energy 0,
    met with a last entry that records a daily energy [dv] (and whose
    total, if recorded, is a number), is appended with daily energy [dv]
    and power 0.  In Scenario B (last total 4.50; sample power 0, daily 0,
    total 4.49) the appended entry has the last entry's daily energy,
    total 4.50 and power 0. *)
Theorem night_fallback_carries_daily :
  (∀ (ts : string) (t : Qc) (le : entry) (dv : value) (now : datetime),
     le !! "energy_daily" = Some dv →
     is_num (get le "energy_total" (VNum 0%Qc)) →
     ∃ e, reconcile (Some (dtu_result ts 0 0%Qc t)) (Some le) false now = Ok e
          ∧ e !! "energy_daily" = Some dv
          ∧ e !! "power" = Some (VNum 0%Qc))
  ∧ (∀ (ts : string) (ts' pv dv : value) (now : datetime),
       reconcile (Some (dtu_result ts 0 0%Qc (hundredths 449)))
                 (Some (mk_entry ts' pv dv (VNum (hundredths 450)))) false now
       = Ok (mk_entry (VStr ts) (VNum 0%Qc) dv (VNum (hundredths 450)))).
Proof.
  split.
  - intros ts t le dv now Hdv [tl Htl].
    pose proof (lookup_nonempty _ _ _ Hdv) as Hne.
    rewrite (reconcile_night ts 0%Qc t tl le now Hne Htl).
    rewrite bool_decide_eq_true_2 by done. rewrite (get_present le _ _ _ Hdv).
    eexists. split; [done|].
    by rewrite mk_entry_energy_daily, mk_entry_power.
  - intros ts ts' pv dv now.
    rewrite (reconcile_night ts 0%Qc (hundredths 449) (hundredths 450));
      [| apply mk_entry_nonempty | apply get_mk_entry_energy_total].
    rewrite bool_decide_eq_true_2 by done.
    rewrite bool_decide_eq_true_2 by reflexivity.
    by rewrite get_mk_entry_energy_daily, get_mk_entry_energy_total.
Qed.

(** C4.  When [new_day] is true the appended entry's daily energy is
    exactly 0, whether a sample is present (whatever it reports) or
    absent, and whatever the last entry is. *)
Theorem new_day_resets_daily :
  (∀ (ts : string) (p : Z) (d t : Qc) (last_entry : option entry) (now : datetime),
     ∃ e, reconcile (Some (dtu_result ts p d t)) last_entry true now = Ok e
          ∧ e !! "energy_daily" = Some (VNum 0%Qc))
  ∧ (∀ (last_entry : option entry) (now : datetime),
       ∃ e, reconcile None last_entry true now = Ok e
            ∧ e !! "energy_daily" = Some (VNum 0%Qc)).
Proof.
  split.
  - intros ts p d t last_entry now.
    destruct (truthy last_entry) as [le|] eqn:Hle.
    + apply truthy_Some in Hle as [-> Hne].
      rewrite reconcile_new_day by done.
      eexists. split; [done | apply mk_entry_energy_daily].
    + rewrite reconcile_new_day_no_last by done.
      eexists. split; [done | apply mk_entry_energy_daily].
  - intros last_entry now.
    destruct (truthy last_entry) as [le|] eqn:Hle.
    + apply truthy_Some in Hle as [-> Hne].
      rewrite reconcile_no_data by done.
      eexists. split; [done | apply mk_entry_energy_daily].
    + rewrite reconcile_cold_start by done.
      eexists. split; [done | apply mk_entry_energy_daily].
Qed.

(** C5.  When [new_day] is true and a sample is present, the appended
    entry has the sample's timestamp and power, daily energy 0, and the
    total recorded in the last entry, not the sample's.  In Scenario A the
    appended entry is timestamp 2024-06-02 00:02, power 5, daily 0, total
    4.50. *)
Theorem new_day_keeps_last_total :
  (∀ (ts : string) (p : Z) (d t : Qc) (le : entry) (tv : value) (now : datetime),
     le !! "energy_total" = Some tv →
     reconcile (Some (dtu_result ts p d t)) (Some le) true now
     = Ok (mk_entry (VStr ts) (VNum (Qc_of_Z p)) (VNum 0%Qc) tv))
  ∧ (∀ now : datetime,
       reconcile (Some sample_A) (Some last_A) true now
       = Ok (dtu_result "2024-06-02 00:02" 5 0%Qc (hundredths 450))).
Proof.
  assert (∀ (ts : string) (p : Z) (d t : Qc) (le : entry) (tv : value) (now : datetime),
     le !! "energy_total" = Some tv →
     reconcile (Some (dtu_result ts p d t)) (Some le) true now
     = Ok (mk_entry (VStr ts) (VNum (Qc_of_Z p)) (VNum 0%Qc) tv)) as Hgen.
  { intros ts p d t le tv now Htv.
    rewrite reconcile_new_day by (by eapply lookup_nonempty).
    by rewrite (get_present le _ _ _ Htv). }
  split; [exact Hgen|].
  intros now. unfold sample_A, last_A.
  by rewrite (Hgen _ _ _ _ _ _ _ (mk_entry_energy_total _ _ _ _)).
Qed.

(** C7.  When the sample is absent: with a last entry that records both
    energies, the appended entry has the current timestamp, power 0, daily
    energy 0 on a new day and the last entry's daily energy otherwise, and
    the last entry's total; without a last entry it has the current
    timestamp and power, daily energy and total all 0.  In Scenario C
    (last daily 8.0, total 3.2, same day) the fallback is power 0, daily
    8.0, total 3.2. *)
Theorem no_data_fallback :
  (∀ (le : entry) (dv tv : value) (new_day : bool) (now : datetime),
     le !! "energy_daily" = Some dv →
     le !! "energy_total" = Some tv →
     reconcile None (Some le) new_day now
     = Ok (mk_entry (VStr (strftime now)) (VNum 0%Qc)
                    (if new_day then VNum 0%Qc else dv) tv))
  ∧ (∀ (new_day : bool) (now : datetime),
       reconcile None None new_day now
       = Ok (mk_entry (VStr (strftime now)) (VNum 0%Qc) (VNum 0%Qc) (VNum 0%Qc)))
  ∧ (∀ now : datetime,
       reconcile None (Some last_C) false now
       = Ok (mk_entry (VStr (strftime now)) (VNum 0%Qc)
                      (VNum (hundredths 800)) (VNum (hundredths 320)))).
Proof.
  assert (∀ (le : entry) (dv tv : value) (new_day : bool) (now : datetime),
     le !! "energy_daily" = Some dv →
     le !! "energy_total" = Some tv →
     reconcile None (Some le) new_day now
     = Ok (mk_entry (VStr (strftime now)) (VNum 0%Qc)
                    (if new_day then VNum 0%Qc else dv) tv)) as Hgen.
  { intros le dv tv new_day now Hdv Htv.
    rewrite reconcile_no_data; [| done | by eapply lookup_nonempty].
    by rewrite (get_present le _ _ _ Hdv), (get_present le _ _ _ Htv). }
  split; [exact Hgen|]. split.
  - intros new_day now. by apply reconcile_cold_start.
  - intros now. unfold last_C.
    by rewrite (Hgen _ _ _ false now (mk_entry_energy_daily _ _ _ _)
                     (mk_entry_energy_total _ _ _ _)).
Qed.

Lemma with_defaults_energy_daily (le : entry) :
  with_defaults le !! "energy_daily" = Some (get le "energy_daily" (VNum 0%Qc)).
Proof. unfold with_defaults. by simplify_map_eq. Qed.

Lemma with_defaults_energy_total (le : entry) :
  with_defaults le !! "energy_total" = Some (get le "energy_total" (VNum 0%Qc)).
Proof. unfold with_defaults. by simplify_map_eq. Qed.

Lemma with_defaults_nonempty (le : entry) : with_defaults le ≠ ∅.
Proof. apply insert_non_empty. Qed.

(** A sample never makes the cycle raise when the last entry's total, if
    recorded, is a number. *)
Lemma reconcile_sample_ok (le : entry) (ts : string) (p : Z) (d t : Qc)
    (new_day : bool) (now : datetime) :
  le ≠ ∅ →
  (∀ v, le !! "energy_total" = Some v → is_num v) →
  ∃ e, reconcile (Some (dtu_result ts p d t)) (Some le) new_day now = Ok e.
Proof.
  intros Hne Hnum. destruct new_day.
  - rewrite reconcile_new_day by done. by eexists.
  - destruct (decide (p = 0)) as [-> | Hp].
    + assert (∃ tl, get le "energy_total" (VNum 0%Qc) = VNum tl) as [tl Htl].
      { unfold get. destruct (le !! "energy_total") as [v|] eqn:Ev; simpl.
        - by apply Hnum.
        - by exists 0%Qc. }
      rewrite (reconcile_night ts d t tl le now Hne Htl). by eexists.
    + rewrite reconcile_producing by done. by eexists.
Qed.

(** C10.  A last entry that is present (its total, if recorded, being a
    number) never makes the cycle raise, also when it lacks [energy_daily]
    or [energy_total].  Without a sample, and on a same-day cycle with a
    sample (whose total is not negative), the appended entry is the one
    obtained had each missing field been recorded as 0.  On a new day a
    last entry without [energy_total] leaves the sample's total in
    place. *)
Theorem missing_fields_tolerated (le : entry) :
  le ≠ ∅ →
  (∀ v, le !! "energy_total" = Some v → is_num v) →
  (∀ (ts : string) (p : Z) (d t : Qc) (new_day : bool) (now : datetime),
     ∃ e, reconcile (Some (dtu_result ts p d t)) (Some le) new_day now = Ok e)
  ∧ (∀ (new_day : bool) (now : datetime),
       ∃ e, reconcile None (Some le) new_day now = Ok e)
  ∧ (∀ (new_day : bool) (now : datetime),
       reconcile None (Some le) new_day now
       = reconcile None (Some (with_defaults le)) new_day now)
  ∧ (∀ (ts : string) (p : Z) (d t : Qc) (now : datetime),
       (0 ≤ t)%Qc →
       reconcile (Some (dtu_result ts p d t)) (Some le) false now
       = reconcile (Some (dtu_result ts p d t)) (Some (with_defaults le)) false now)
  ∧ (le !! "energy_total" = None →
     ∀ (ts : string) (p : Z) (d t : Qc) (now : datetime),
       reconcile (Some (dtu_result ts p d t)) (Some le) true now
       = Ok (dtu_result ts p 0%Qc t)).
Proof.
  intros Hne Hnum.
  assert (∃ tl, get le "energy_total" (VNum 0%Qc) = VNum tl) as [tl Htl].
  { unfold get. destruct (le !! "energy_total") as [v|] eqn:Ev; simpl.
    - by apply Hnum.
    - by exists 0%Qc. }
  split; [|split; [|split; [|split]]].
  - intros ts p d t new_day now. by apply reconcile_sample_ok.
  - intros new_day now. rewrite reconcile_no_data by done. by eexists.
  - intros new_day now.
    rewrite !reconcile_no_data by (done || apply with_defaults_nonempty).
    by rewrite (get_present _ _ _ _ (with_defaults_energy_daily le)),
               (get_present _ _ _ _ (with_defaults_energy_total le)).
  - intros ts p d t now Ht. destruct (decide (p = 0)) as [-> | Hp].
    + rewrite (reconcile_night ts d t tl le now Hne Htl).
      rewrite (reconcile_night ts d t tl (with_defaults le) now);
        [| apply with_defaults_nonempty
         | by rewrite (get_present _ _ _ _ (with_defaults_energy_total le))].
      rewrite (get_present _ _ _ (VNum 0%Qc) (with_defaults_energy_daily le)).
      rewrite (get_present _ _ _ (VNum t) (with_defaults_energy_total le)).
      destruct (decide (t < tl)%Qc) as [Hlt | Hge].
      * rewrite (bool_decide_eq_true_2 _ Hlt).
        destruct (le !! "energy_total") as [v|] eqn:Ev.
        -- by rewrite !(get_present le _ _ _ Ev).
        -- rewrite (get_missing le _ _ Ev) in Htl. injection Htl as <-.
           by apply Qclt_nge in Hlt.
      * by rewrite (bool_decide_eq_false_2 _ Hge).
    + by rewrite !reconcile_producing by done.
  - intros Hnone ts p d t now.
    rewrite reconcile_new_day by done. by rewrite (get_missing le _ _ Hnone).
Qed.

End Reconciliation.

(** ** The cycle as a whole *)

Section Main.
Context `{DatetimeFormat}.

(** A run that does not raise writes back the pruned history followed by
    exactly one new entry. *)
Lemma main_appends_one (history : list entry) (now0 now : datetime)
    (result : option entry) (history' : list entry) :
  main history now0 now result = Ok history' →
  ∃ e, history' = prune_old_entries now0 history ++ [e]
       ∧ reconcile result (list.last (prune_old_entries now0 history))
           (is_new_day (list.last (prune_old_entries now0 history)) now) now
         = Ok e.
Proof.
  unfold main.
  destruct (reconcile result _ _ now) as [err|e] eqn:E; simpl; [done|].
  intros [= <-]. by exists e.
Qed.

(** X7.  A run with a sample as [get_dtu_data] builds it, or with none, never
    raises when the totals recorded in the history are numbers. *)
Lemma main_total (history : list entry) (now0 now : datetime)
    (result : option entry) :
  Forall (λ e : entry, ∀ v, e !! "energy_total" = Some v → is_num v) history →
  result = None ∨ (∃ ts p d t, result = Some (dtu_result ts p d t)) →
  ∃ history', main history now0 now result = Ok history'.
Proof.
  intros Hnum Hres. unfold main.
  destruct (list.last (prune_old_entries now0 history)) as [le|] eqn:Hlast.
  - destruct (last_pruned_truthy _ _ _ Hlast) as [Hle%truthy_Some _].
    destruct Hle as [_ Hne].
    assert (∀ v, le !! "energy_total" = Some v → is_num v) as Hle.
    { apply (proj1 (list.Forall_forall _ _) Hnum).
      apply last_Some_elem_of, prune_old_entries_retention in Hlast.
      tauto. }
    destruct Hres as [-> | (ts & p & d & t & ->)].
    + rewrite reconcile_no_data by done. eexists; reflexivity.
    + destruct (reconcile_sample_ok le ts p d t (is_new_day (Some le) now) now
                  Hne Hle) as [e ->].
      eexists; reflexivity.
  - change (is_new_day None now) with false.
    destruct Hres as [-> | (ts & p & d & t & ->)].
    + rewrite reconcile_cold_start by done. eexists; reflexivity.
    + destruct (decide (p = 0)) as [-> | Hp].
      * rewrite reconcile_night_no_last by done. eexists; reflexivity.
      * rewrite reconcile_producing by done. eexists; reflexivity.
Qed.

End Main.

(** ** The documented scenarios, evaluated *)

Section Scenarios.
Import Scenario.
#[local] Existing Instance PyDatetime.format.

Example strptime_scenario_A :
  strptime "2024-06-01 23:58" = Some (PyDatetime.mk_datetime 2024 6 1 23 58).
Proof. reflexivity. Qed.

Example strptime_rejects :
  strptime "2024-06-31 23:58" = None
  ∧ strptime "2024-06-01 24:00" = None
  ∧ strptime "2024-06-01 23:58:00" = None
  ∧ strptime "yesterday" = None.
Proof. by vm_compute. Qed.

Example strftime_now_A : strftime now_A = "2024-06-02 00:02"%string.
Proof. reflexivity. Qed.

(** Scenario A, from the stored history to the history written back. *)
Example scenario_A_main :
  is_new_day (Some last_A) now_A = true
  ∧ main [last_A] now_A now_A (Some sample_A)
    = Ok [last_A; dtu_result "2024-06-02 00:02" 5 0%Qc (hundredths 450)].
Proof. by vm_compute. Qed.

(** Scenario B. *)
Example scenario_B_main :
  main [last_B] now_B now_B (Some sample_B)
  = Ok [last_B; dtu_result "2024-06-01 21:45" 0 (hundredths 1230) (hundredths 450)].
Proof. by vm_compute. Qed.

(** Scenario C. *)
Example scenario_C_main :
  main [last_C] now_B now_B None
  = Ok [last_C; mk_entry (VStr "2024-06-01 21:45") (VNum 0%Qc)
                         (VNum (hundredths 800)) (VNum (hundredths 320))].
Proof. by vm_compute. Qed.

(** Scenario D: cold start. *)
Example scenario_D_main :
  main [] now_B now_B None
  = Ok [mk_entry (VStr "2024-06-01 21:45") (VNum 0%Qc) (VNum 0%Qc) (VNum 0%Qc)].
Proof. by vm_compute. Qed.

(** An entry older than 24 hours leaves the history before the last
    entry is read. *)
Example stale_entry_pruned :
  main [last_B; last_A] (now_A + timedelta_hours 22) (now_A + timedelta_hours 22) None
  = Ok [last_A; mk_entry (VStr "2024-06-02 22:02") (VNum 0%Qc) (VNum 0%Qc)
                         (VNum (hundredths 450))].
Proof. by vm_compute. Qed.

(** C1, as stated, fails: on a same-day cycle a sample with power 5 and
    total 4.49 is appended after an entry with total 4.50. *)
Lemma total_energy_dips_when_producing :
  main [last_dip] now_dip now_dip (Some sample_dip) = Ok [last_dip; sample_dip]
  ∧ last_dip !! "energy_total" = Some (VNum (hundredths 450))
  ∧ sample_dip !! "energy_total" = Some (VNum (hundredths 449))
  ∧ ¬ total_not_below (hundredths 450)
        (reconcile (Some sample_dip) (Some last_dip) false now_dip).
Proof.
  split; [by vm_compute|]. split; [reflexivity|]. split; [reflexivity|].
  intros (e & tn & He & Htn & Hle).
  unfold sample_dip in He. rewrite reconcile_producing in He by done.
  injection He as <-. unfold dtu_result in Htn.
  rewrite mk_entry_energy_total in Htn.
  injection Htn as <-. apply Hle. reflexivity.
Qed.

(** C2, as stated, fails when the sample's power is not 0: with power 1
    and total 4.49 after a last total of 4.50, the appended total is 4.49,
    not 4.50. *)
Lemma regression_recorded_at_nonzero_power :
  is_new_day (Some last_dusk) now_dusk = false
  ∧ last_dusk !! "energy_total" = Some (VNum (hundredths 450))
  ∧ sample_dusk !! "energy_total" = Some (VNum (hundredths 449))
  ∧ (hundredths 449 < hundredths 450)%Qc
  ∧ ∃ e, reconcile (Some sample_dusk) (Some last_dusk) false now_dusk = Ok e
         ∧ e !! "energy_total" = Some (VNum (hundredths 449))
         ∧ e !! "energy_total" ≠ last_dusk !! "energy_total".
Proof.
  split; [by vm_compute|]. split; [reflexivity|]. split; [reflexivity|].
  split; [reflexivity|].
  exists sample_dusk. split; [by vm_compute|]. split; [reflexivity|].
  by vm_compute.
Qed.

(** Without the non-negative total, C10's "as if recorded as 0" fails: a
    negative sample total is kept when the last entry has no total, and
    replaced by 0 when the last entry records total 0. *)
Example negative_total_kept :
  reconcile (Some (dtu_result "2024-06-01 21:45" 0 0%Qc (hundredths (-100))))
            (Some last_bare) false now_B
  = Ok (dtu_result "2024-06-01 21:45" 0 0%Qc (hundredths (-100)))
  ∧ reconcile (Some (dtu_result "2024-06-01 21:45" 0 0%Qc (hundredths (-100))))
              (Some (with_defaults last_bare)) false now_B
    = Ok (dtu_result "2024-06-01 21:45" 0 0%Qc 0%Qc).
Proof. by vm_compute. Qed.

(** *** The theorems at the scenarios *)

Lemma total_energy_monotone_when_guarded_witness :
  last_B !! "energy_total" = Some (VNum (hundredths 450))
  ∧ total_not_below (hundredths 450)
      (reconcile (Some sample_B) (Some last_B) false now_B).
Proof.
  split; [reflexivity|].
  apply (total_energy_monotone_when_guarded
           (Some sample_B) last_B (hundredths 450) false now_B).
  - reflexivity.
  - right. exists "2024-06-01 21:45"%string, 0, 0%Qc, (hundredths 449).
    split; [reflexivity|]. right. left. reflexivity.
Defined.

Lemma regression_carried_at_zero_power_witness :
  (hundredths 449 < hundredths 450)%Qc
  ∧ ∃ e, reconcile (Some sample_B) (Some last_B) false now_B = Ok e
         ∧ e !! "energy_total" = Some (VNum (hundredths 450))
         ∧ e !! "power" = Some (VNum 0%Qc).
Proof.
  split; [reflexivity|].
  apply (regression_carried_at_zero_power
           "2024-06-01 21:45" 0%Qc (hundredths 449) (hundredths 450) last_B now_B);
    reflexivity.
Defined.

Lemma night_fallback_carries_daily_witness :
  ∃ e, reconcile (Some sample_B) (Some last_B) false now_B = Ok e
       ∧ e !! "energy_daily" = Some (VNum (hundredths 1230))
       ∧ e !! "power" = Some (VNum 0%Qc).
Proof.
  apply (proj1 night_fallback_carries_daily
           "2024-06-01 21:45"%string (hundredths 449) last_B
           (VNum (hundredths 1230)) now_B).
  - reflexivity.
  - exists (hundredths 450). reflexivity.
Defined.

Lemma new_day_keeps_last_total_witness :
  last_A !! "energy_total" = Some (VNum (hundredths 450))
  ∧ reconcile (Some sample_A) (Some last_A) true now_A
    = Ok (mk_entry (VStr "2024-06-02 00:02") (VNum (Qc_of_Z 5)) (VNum 0%Qc)
                   (VNum (hundredths 450))).
Proof.
  split; [reflexivity|].
  apply (proj1 new_day_keeps_last_total
           "2024-06-02 00:02"%string 5 (hundredths 10) (hundredths 450) last_A
           (VNum (hundredths 450)) now_A).
  reflexivity.
Defined.

Lemma no_data_fallback_witness :
  reconcile None (Some last_C) false now_B
  = Ok (mk_entry (VStr (strftime now_B)) (VNum 0%Qc)
                 (VNum (hundredths 800)) (VNum (hundredths 320))).
Proof.
  apply (proj1 no_data_fallback last_C (VNum (hundredths 800))
           (VNum (hundredths 320)) false now_B); reflexivity.
Defined.

Lemma is_new_day_spec_witness :
  (¬ ∃ t, timestamp_parses last_garbled t)
  ∧ is_new_day (Some last_garbled) now_A = false.
Proof.
  assert (¬ ∃ t, timestamp_parses last_garbled t) as Hno.
  { intros (t & s & Hs & Ht). vm_compute in Hs. injection Hs as <-.
    vm_compute in Ht. discriminate Ht. }
  split; [exact Hno|].
  exact (proj2 (proj2 (is_new_day_spec (Some last_garbled) now_A)) last_garbled Hno).
Defined.

Lemma missing_fields_tolerated_witness :
  last_bare ≠ ∅
  ∧ reconcile (Some sample_B) (Some last_bare) false now_B
    = reconcile (Some sample_B) (Some (with_defaults last_bare)) false now_B
  ∧ reconcile (Some sample_A) (Some last_bare) true now_A
    = Ok (dtu_result "2024-06-02 00:02" 5 0%Qc (hundredths 450)).
Proof.
  assert (last_bare ≠ ∅) as Hne by (vm_compute; discriminate).
  assert (∀ v, last_bare !! "energy_total" = Some v → is_num v) as Hnum.
  { intros v Hv. vm_compute in Hv. discriminate Hv. }
  destruct (missing_fields_tolerated last_bare Hne Hnum)
    as (_ & _ & _ & Hsame & Hnew).
  split; [exact Hne|]. split.
  - apply (Hsame "2024-06-01 21:45"%string 0 0%Qc (hundredths 449) now_B).
    vm_compute. discriminate.
  - apply (Hnew eq_refl "2024-06-02 00:02"%string 5 (hundredths 10)
             (hundredths 450) now_A).
Defined.

End Scenarios.

(** * Further properties of the code *)

(** ** [prune_old_entries] *)

Section PruningMore.
Context `{DatetimeFormat}.

(** X1.  Pruning looks at each entry on its own: it distributes over
    concatenation. *)
Lemma prune_old_entries_app (now : datetime) (h1 h2 : list entry) :
  prune_old_entries now (h1 ++ h2)
  = prune_old_entries now h1 ++ prune_old_entries now h2.
Proof. rewrite !prune_old_entries_filter. apply list.filter_app. Qed.

Lemma in_window_earlier (now now' : datetime) (e : entry) :
  now ≤ now' → in_window now' e → in_window now e.
Proof. intros Hle (t & Ht & Hlt). exists t. split; [done | lia]. Qed.

(** X2.  Pruning at a clock reading and again at a later one keeps what
    pruning once at the later reading keeps. *)
Lemma prune_old_entries_later (now now' : datetime) (history : list entry) :
  now ≤ now' →
  prune_old_entries now' (prune_old_entries now history)
  = prune_old_entries now' history.
Proof.
  intros Hle. rewrite !prune_old_entries_filter.
  apply list_filter_filter_l. intros e. by apply in_window_earlier.
Qed.

(** X3.  Pruning loses nothing exactly when every entry lies in the window. *)
Lemma prune_old_entries_keeps_all (now : datetime) (history : list entry) :
  prune_old_entries now history = history ↔ Forall (in_window now) history.
Proof.
  rewrite prune_old_entries_filter. split.
  - intros Heq. rewrite <- Heq. apply list.Forall_forall.
    intros e He. by apply list_elem_of_filter in He as [? _].
  - induction 1 as [|e l He Hl IH]; [done|].
    rewrite filter_cons, decide_True by done. by rewrite IH.
Qed.

(** Pruning leaves nothing exactly when no entry lies in the window. *)
Lemma prune_old_entries_drops_all (now : datetime) (history : list entry) :
  prune_old_entries now history = []
  ↔ Forall (λ e, ¬ in_window now e) history.
Proof.
  rewrite prune_old_entries_filter. split.
  - intros Heq. apply list.Forall_forall. intros e He Hin.
    assert (e ∈ filter (in_window now) history) as Hf
      by (by apply list_elem_of_filter).
    rewrite Heq in Hf. by apply not_elem_of_nil in Hf.
  - induction 1 as [|e l He Hl IH]; [done|].
    by rewrite filter_cons, decide_False.
Qed.

Lemma date_of_day_before (t : datetime) :
  date_of (t - timedelta_hours 24) = date_of t - 1.
Proof.
  unfold date_of, timedelta_hours, us_per_day.
  replace (t - 24 * us_per_hour) with (t + (-1) * (24 * us_per_hour)) by lia.
  rewrite Z.div_add by (unfold us_per_hour; lia). lia.
Qed.

(** X4.  A retained entry is dated no earlier than the day before the clock
    reading. *)
Lemma retained_since_yesterday (now : datetime) (history : list entry) (e : entry) :
  e ∈ prune_old_entries now history →
  ∃ t, timestamp_parses e t ∧ date_of now - 1 ≤ date_of t.
Proof.
  intros He. apply prune_old_entries_retention in He as [_ (t & Ht & Hlt)].
  exists t. split; [done|].
  rewrite <- date_of_day_before. unfold date_of.
  apply Z.div_le_mono; [unfold us_per_day, us_per_hour; lia | lia].
Qed.

End PruningMore.

(** ** The appended entry *)

Section ReconcileMore.
Context `{DatetimeFormat}.

Lemma dom_mk_entry (ts p d t : value) : dom (mk_entry ts p d t) = entry_keys.
Proof.
  unfold mk_entry, entry_keys.
  rewrite !dom_insert_L, dom_singleton_L. set_solver.
Qed.

(** A last total that is not a number makes the comparison at line 146
    raise. *)
Lemma reconcile_night_type_error (ts : string) (d t : Qc) (le : entry) (v : value)
    (now : datetime) :
  le !! "energy_total" = Some v →
  ¬ is_num v →
  reconcile (Some (dtu_result ts 0 d t)) (Some le) false now = Raise TypeError.
Proof.
  intros Hv Hnum. pose proof (lookup_nonempty _ _ _ Hv) as Hne.
  unfold reconcile, dtu_result. autorewrite with dict.
  rewrite bool_decide_eq_true_2 by done. rewrite (truthy_nonempty le Hne).
  rewrite Z2Qc_inj_0.
  destruct (bool_decide (d = 0%Qc)); autorewrite with dict;
    repeat rewrite (get_present le "energy_total" _ _ Hv);
    (destruct v as [q|s|];
       [exfalso; apply Hnum; by exists q | reflexivity | reflexivity]).
Qed.

(** What a run with a sample can append, whatever the last entry is: the
    sample's timestamp and power, a daily energy and a total each taken
    from the sample, from the last entry, or reset to 0 on a new day. *)
Lemma reconcile_sample_inv (ts : string) (p : Z) (d t : Qc)
    (last_entry : option entry) (new_day : bool) (now : datetime) (e : entry) :
  reconcile (Some (dtu_result ts p d t)) last_entry new_day now = Ok e →
  ∃ dv tv,
    e = mk_entry (VStr ts) (VNum (Qc_of_Z p)) dv tv
    ∧ (dv = VNum d
       ∨ (new_day = true ∧ dv = VNum 0%Qc)
       ∨ (∃ le, truthy last_entry = Some le
                ∧ dv = get le "energy_daily" (VNum 0%Qc)))
    ∧ (tv = VNum t
       ∨ (∃ le, truthy last_entry = Some le ∧ le !! "energy_total" = Some tv)).
Proof.
  assert (∀ (le : entry) (dflt : value),
            get le "energy_total" dflt = dflt
            ∨ le !! "energy_total" = Some (get le "energy_total" dflt)) as Hget.
  { intros le dflt. unfold get. destruct (le !! "energy_total"); auto. }
  destruct (truthy last_entry) as [le|] eqn:Hle.
  - pose proof Hle as Htr. apply truthy_Some in Hle as [-> Hne].
    destruct new_day.
    + rewrite reconcile_new_day by done. intros [= <-].
      eexists _, _. split; [done|]. split; [by right; left|].
      destruct (Hget le (VNum t)) as [-> | Hs]; [by left | right; by exists le].
    + destruct (decide (p = 0)) as [-> | Hp].
      * destruct (get le "energy_total" (VNum 0%Qc)) as [tl| |] eqn:Ht0.
        -- rewrite (reconcile_night ts d t tl le now Hne Ht0). intros [= <-].
           rewrite Z2Qc_inj_0. eexists _, _. split; [done|]. split.
           ++ destruct (bool_decide (d = 0%Qc)); [right; right; by exists le | by left].
           ++ destruct (bool_decide (t < tl)%Qc); [|by left].
              destruct (Hget le (VNum t)) as [-> | Hs]; [by left | right; by exists le].
        -- rewrite (reconcile_night_type_error ts d t le (VStr s)); [done | | by intros [? ?]].
           unfold get in Ht0. by destruct (le !! "energy_total") as [?|]; simplify_eq/=.
        -- rewrite (reconcile_night_type_error ts d t le VNull); [done | | by intros [? ?]].
           unfold get in Ht0. by destruct (le !! "energy_total") as [?|]; simplify_eq/=.
      * rewrite reconcile_producing by done. intros [= <-].
        eexists _, _. split; [done|]. split; by left.
  - destruct new_day.
    + rewrite reconcile_new_day_no_last by done. intros [= <-].
      eexists _, _. split; [done|]. split; [by right; left | by left].
    + destruct (decide (p = 0)) as [-> | Hp].
      * rewrite reconcile_night_no_last by done. intros [= <-].
        eexists _, _. split; [done|]. split; by left.
      * rewrite reconcile_producing by done. intros [= <-].
        eexists _, _. split; [done|]. split; by left.
Qed.

(** X9.  A sample's timestamp and power are never altered: whatever the last
    entry and the day flag, a run that appends the sample's entry appends
    it with the sample's own timestamp and power. *)
Lemma sample_timestamp_power_kept (ts : string) (p : Z) (d t : Qc)
    (last_entry : option entry) (new_day : bool) (now : datetime) (e : entry) :
  reconcile (Some (dtu_result ts p d t)) last_entry new_day now = Ok e →
  e !! "timestamp" = Some (VStr ts) ∧ e !! "power" = Some (VNum (Qc_of_Z p)).
Proof.
  intros (dv & tv & -> & _)%reconcile_sample_inv.
  by rewrite mk_entry_timestamp, mk_entry_power.
Qed.

(** X10.  Every appended entry has exactly the four keys, also when the last
    entry lacks some of them. *)
Lemma appended_entry_keys (result last_entry : option entry) (new_day : bool)
    (now : datetime) (e : entry) :
  from_dtu result →
  reconcile result last_entry new_day now = Ok e →
  dom e = entry_keys.
Proof.
  intros [-> | (ts & p & d & t & ->)].
  - destruct (truthy last_entry) as [le|] eqn:Hle.
    + apply truthy_Some in Hle as [-> Hne].
      rewrite reconcile_no_data by done. intros [= <-]. apply dom_mk_entry.
    + rewrite reconcile_cold_start by done. intros [= <-]. apply dom_mk_entry.
  - intros (dv & tv & -> & _)%reconcile_sample_inv. apply dom_mk_entry.
Qed.

(** X11.  No energy value is invented: the appended total is the sample's, or
    the one recorded in the last entry, or 0; and likewise the appended
    daily energy. *)
Lemma energies_not_invented (result last_entry : option entry) (new_day : bool)
    (now : datetime) (e : entry) :
  from_dtu result →
  reconcile result last_entry new_day now = Ok e →
  (∃ tv, e !! "energy_total" = Some tv
         ∧ (tv = VNum 0%Qc
            ∨ (∃ le, last_entry = Some le ∧ le !! "energy_total" = Some tv)
            ∨ (∃ ts p d t, result = Some (dtu_result ts p d t) ∧ tv = VNum t)))
  ∧ (∃ dv, e !! "energy_daily" = Some dv
           ∧ (dv = VNum 0%Qc
              ∨ (∃ le, last_entry = Some le ∧ le !! "energy_daily" = Some dv)
              ∨ (∃ ts p d t, result = Some (dtu_result ts p d t) ∧ dv = VNum d))).
Proof.
  assert (∀ (le : entry) (k : string),
            get le k (VNum 0%Qc) = VNum 0%Qc
            ∨ le !! k = Some (get le k (VNum 0%Qc))) as Hget.
  { intros le k. unfold get. destruct (le !! k); auto. }
  intros [-> | (ts & p & d & t & ->)].
  - destruct (truthy last_entry) as [le|] eqn:Hle.
    + apply truthy_Some in Hle as [-> Hne].
      rewrite reconcile_no_data by done. intros [= <-].
      rewrite mk_entry_energy_total, mk_entry_energy_daily. split.
      * eexists. split; [done|].
        destruct (Hget le "energy_total") as [-> | Hs]; [by left | right; left; by exists le].
      * eexists. split; [done|]. destruct new_day; [by left|].
        destruct (Hget le "energy_daily") as [-> | Hs]; [by left | right; left; by exists le].
    + rewrite reconcile_cold_start by done. intros [= <-].
      rewrite mk_entry_energy_total, mk_entry_energy_daily.
      split; eexists; (split; [done | by left]).
  - intros (dv & tv & -> & Hdv & Htv)%reconcile_sample_inv.
    rewrite mk_entry_energy_total, mk_entry_energy_daily. split.
    + exists tv. split; [done|].
      destruct Htv as [-> | (le & [-> _]%truthy_Some & Hs)].
      * right; right. by exists ts, p, d, t.
      * right; left. by exists le.
    + exists dv. split; [done|].
      destruct Hdv as [-> | [[_ ->] | (le & [-> _]%truthy_Some & ->)]].
      * right; right. by exists ts, p, d, t.
      * by left.
      * destruct (Hget le "energy_daily") as [-> | Hs]; [by left | right; left; by exists le].
Qed.

(** The cases of the same-day branch that leave the sample untouched. *)
Lemma reconcile_verbatim (ts : string) (p : Z) (d t : Qc)
    (last_entry : option entry) (now : datetime) :
  p ≠ 0
  ∨ truthy last_entry = None
  ∨ (∃ le tl, last_entry = Some le ∧ le !! "energy_total" = Some (VNum tl)
              ∧ d ≠ 0%Qc ∧ (tl ≤ t)%Qc) →
  reconcile (Some (dtu_result ts p d t)) last_entry false now
  = Ok (dtu_result ts p d t).
Proof.
  intros Hcase. destruct (decide (p = 0)) as [-> | Hp];
    [|by apply reconcile_producing].
  destruct Hcase as [? | [Hnone | (le & tl & -> & Htl & Hd & Hge)]]; [done | |].
  - by apply reconcile_night_no_last.
  - rewrite (reconcile_night ts d t tl le now (lookup_nonempty _ _ _ Htl)
               (get_present le _ _ _ Htl)).
    rewrite (bool_decide_eq_false_2 _ Hd).
    rewrite bool_decide_eq_false_2 by (by apply Qcle_ngt).
    unfold dtu_result. by rewrite Z2Qc_inj_0.
Qed.

(** X13.  The night fallback in closed form: with power 0 on the same day, the
    appended daily energy is the last one when the sample reports 0 and
    the sample's otherwise, and the appended total is the larger of the
    sample's and the last one; the two replacements are independent. *)
Lemma night_fallback_closed_form (ts : string) (d t tl : Qc) (dv : value)
    (le : entry) (now : datetime) :
  le !! "energy_daily" = Some dv →
  le !! "energy_total" = Some (VNum tl) →
  reconcile (Some (dtu_result ts 0 d t)) (Some le) false now
  = Ok (mk_entry (VStr ts) (VNum 0%Qc)
          (if bool_decide (d = 0%Qc) then dv else VNum d)
          (VNum (if bool_decide (t < tl)%Qc then tl else t))).
Proof.
  intros Hdv Htl.
  rewrite (reconcile_night ts d t tl le now (lookup_nonempty _ _ _ Htl)
             (get_present le _ _ _ Htl)).
  rewrite (get_present le _ _ _ Hdv), (get_present le _ _ _ Htl).
  by destruct (bool_decide (t < tl)%Qc).
Qed.

(** X15.  Without a day change, a nonzero daily energy recorded in the last
    entry is followed by a daily energy of 0 only when a sample with
    nonzero power itself reports 0. *)
Lemma no_reset_without_new_day (result : option entry) (le : entry) (dl : Qc)
    (now : datetime) (e : entry) :
  from_dtu result →
  le !! "energy_daily" = Some (VNum dl) →
  dl ≠ 0%Qc →
  reconcile result (Some le) false now = Ok e →
  e !! "energy_daily" = Some (VNum 0%Qc) →
  ∃ ts p t, result = Some (dtu_result ts p 0%Qc t) ∧ p ≠ 0.
Proof.
  intros Hres Hdl Hnz. pose proof (lookup_nonempty _ _ _ Hdl) as Hne.
  destruct Hres as [-> | (ts & p & d & t & ->)].
  - rewrite reconcile_no_data by done. intros [= <-].
    rewrite mk_entry_energy_daily, (get_present le _ _ _ Hdl). congruence.
  - destruct (decide (p = 0)) as [-> | Hp].
    + destruct (get le "energy_total" (VNum 0%Qc)) as [tl|s|] eqn:Ht0.
      * rewrite (reconcile_night ts d t tl le now Hne Ht0). intros [= <-].
        rewrite mk_entry_energy_daily, (get_present le _ _ _ Hdl).
        case_bool_decide; congruence.
      * rewrite (reconcile_night_type_error ts d t le (VStr s)); [done | | by intros [? ?]].
        unfold get in Ht0. by destruct (le !! "energy_total") as [?|]; simplify_eq/=.
      * rewrite (reconcile_night_type_error ts d t le VNull); [done | | by intros [? ?]].
        unfold get in Ht0. by destruct (le !! "energy_total") as [?|]; simplify_eq/=.
    + rewrite reconcile_producing by done. intros [= <-].
      unfold dtu_result. rewrite mk_entry_energy_daily. intros [= ->].
      by exists ts, p, t.
Qed.

(** X14.  A last total that is not a number (a string or [null] in the stored
    file) makes a same-day run with a sample of power 0 end in a
    [TypeError]: nothing is appended and nothing is written back. *)
Lemma non_numeric_total_raises (ts : string) (d t : Qc) (le : entry) (v : value)
    (now : datetime) :
  le !! "energy_total" = Some v →
  ¬ is_num v →
  reconcile (Some (dtu_result ts 0 d t)) (Some le) false now = Raise TypeError
  ∧ ∀ (history : list entry) (now0 : datetime),
      list.last (prune_old_entries now0 history) = Some le →
      is_new_day (Some le) now = false →
      main history now0 now (Some (dtu_result ts 0 d t)) = Raise TypeError.
Proof.
  intros Hv Hnum.
  pose proof (reconcile_night_type_error ts d t le v now Hv Hnum) as Hraise.
  split; [exact Hraise|].
  intros history now0 Hlast Hsame. unfold main.
  by rewrite Hlast, Hsame, Hraise.
Qed.

(** X12.  On a same-day cycle a sample is appended exactly as reported when it
    has nonzero power, when there is no last entry, or when it reports a
    nonzero daily energy and a total not below the last one. *)
Lemma sample_recorded_verbatim (ts : string) (p : Z) (d t : Qc)
    (last_entry : option entry) (now : datetime) :
  p ≠ 0
  ∨ truthy last_entry = None
  ∨ (∃ le tl, last_entry = Some le ∧ le !! "energy_total" = Some (VNum tl)
              ∧ d ≠ 0%Qc ∧ (tl ≤ t)%Qc) →
  reconcile (Some (dtu_result ts p d t)) last_entry false now
  = Ok (dtu_result ts p d t).
Proof. apply reconcile_verbatim. Qed.

End ReconcileMore.

(** ** The cycle as a whole, continued *)

Section MainMore.
Context `{DatetimeFormat}.

(** X5.  After pruning, the day-change test never takes its exception path:
    the last retained entry has a timestamp that parses, inside the
    window, and [new_day] is exactly "its date differs from today's". *)
Lemma new_day_after_pruning (history : list entry) (now0 now : datetime)
    (le : entry) :
  list.last (prune_old_entries now0 history) = Some le →
  ∃ t, timestamp_parses le t
       ∧ now0 - timedelta_hours 24 < t
       ∧ is_new_day (Some le) now = bool_decide (date_of now ≠ date_of t).
Proof.
  intros Hlast.
  destruct (last_pruned_truthy _ _ _ Hlast) as [Htr _].
  apply last_Some_elem_of, prune_old_entries_retention in Hlast
    as [_ (t & Ht & Hlt)].
  exists t. split; [done|]. split; [done|].
  unfold is_new_day, last_date_of. rewrite Htr.
  apply parse_timestamp_Some in Ht. by rewrite Ht.
Qed.

(** X6.  A history with no entry left in the window behaves like an empty one:
    without a sample the run writes a single all-zero entry, so the
    recorded total restarts at 0; with a sample it writes the sample as
    reported, with no daily reset. *)
Lemma stale_history_cold_start (history : list entry) (now0 now : datetime) :
  Forall (λ e, ¬ in_window now0 e) history →
  main history now0 now None
  = Ok [mk_entry (VStr (strftime now)) (VNum 0%Qc) (VNum 0%Qc) (VNum 0%Qc)]
  ∧ ∀ (ts : string) (p : Z) (d t : Qc),
      main history now0 now (Some (dtu_result ts p d t))
      = Ok [dtu_result ts p d t].
Proof.
  intros Hstale%prune_old_entries_drops_all. unfold main. rewrite Hstale.
  change (is_new_day (list.last []) now) with false.
  split.
  - by rewrite reconcile_cold_start.
  - intros ts p d t.
    by rewrite (reconcile_verbatim ts p d t (list.last []) now)
      by (right; by left).
Qed.

Lemma complete_nonempty (e : entry) : complete e → e ≠ ∅.
Proof. intros (ts & p & d & t & ->). apply mk_entry_nonempty. Qed.

(** The entry appended after a complete last entry, or after none, is
    complete. *)
Lemma reconcile_complete (result last_entry : option entry) (new_day : bool)
    (now : datetime) :
  from_dtu result →
  (∀ le, last_entry = Some le → complete le) →
  ∃ e, reconcile result last_entry new_day now = Ok e ∧ complete e.
Proof.
  intros Hres Hlast. destruct last_entry as [le|].
  - destruct (Hlast le eq_refl) as (ts' & p' & d' & t' & ->).
    destruct Hres as [-> | (ts & p & d & t & ->)].
    + rewrite reconcile_no_data by (done || apply mk_entry_nonempty).
      autorewrite with dict. eexists. split; [done|].
      destruct new_day; by eexists _, _, _, _.
    + destruct new_day.
      * rewrite reconcile_new_day by apply mk_entry_nonempty.
        autorewrite with dict. eexists. split; [done|]. by eexists _, _, _, _.
      * destruct (decide (p = 0)) as [-> | Hp].
        -- rewrite (reconcile_night ts d t t');
             [| apply mk_entry_nonempty | by autorewrite with dict].
           autorewrite with dict. eexists. split; [done|].
           destruct (bool_decide (d = 0%Qc)), (bool_decide (t < t')%Qc);
             by eexists _, _, _, _.
        -- rewrite reconcile_producing by done.
           eexists. split; [done|]. by eexists _, _, _, _.
  - destruct Hres as [-> | (ts & p & d & t & ->)].
    + rewrite reconcile_cold_start by done.
      eexists. split; [done|]. by eexists _, _, _, _.
    + destruct new_day.
      * rewrite reconcile_new_day_no_last by done.
        eexists. split; [done|]. by eexists _, _, _, _.
      * rewrite (reconcile_verbatim ts p d t None now) by (right; by left).
        eexists. split; [done|]. by eexists _, _, _, _.
Qed.

(** X8.  Completeness is an invariant of the history file: from a history of
    complete entries a run never raises, and writes back a history of
    complete entries, the pruned one followed by one new entry. *)
Lemma main_preserves_complete (history : list entry) (now0 now : datetime)
    (result : option entry) :
  Forall complete history →
  from_dtu result →
  ∃ e, main history now0 now result = Ok (prune_old_entries now0 history ++ [e])
       ∧ complete e
       ∧ Forall complete (prune_old_entries now0 history ++ [e]).
Proof.
  intros Hall Hres.
  assert (Forall complete (prune_old_entries now0 history)) as Hpruned.
  { apply list.Forall_forall. intros x [Hx _]%prune_old_entries_retention.
    by apply (proj1 (list.Forall_forall _ _) Hall). }
  destruct (reconcile_complete result (list.last (prune_old_entries now0 history))
              (is_new_day (list.last (prune_old_entries now0 history)) now) now Hres)
    as (e & He & Hc).
  { intros le Hle%last_Some_elem_of.
    by apply (proj1 (list.Forall_forall _ _) Hpruned). }
  exists e. unfold main. rewrite He. split; [done|]. split; [done|].
  apply Forall_app. split; [done|]. by apply Forall_singleton.
Qed.

End MainMore.

(** ** The further properties at concrete inputs *)

Section AtCases.
Import Scenario Cases.
#[local] Existing Instance PyDatetime.format.

Lemma prune_old_entries_later_witness :
  now_A ≤ now_late
  ∧ prune_old_entries now_late (prune_old_entries now_A [last_B; last_A])
    = prune_old_entries now_late [last_B; last_A].
Proof.
  assert (now_A ≤ now_late) as Hle by (by vm_compute).
  split; [exact Hle|].
  exact (prune_old_entries_later now_A now_late [last_B; last_A] Hle).
Defined.

Lemma retained_since_yesterday_witness :
  ∃ t, timestamp_parses last_B t ∧ date_of now_A - 1 ≤ date_of t.
Proof.
  apply (retained_since_yesterday now_A [last_B; last_A] last_B).
  replace (prune_old_entries now_A [last_B; last_A]) with [last_B; last_A]
    by (by vm_compute).
  by constructor.
Defined.

Lemma new_day_after_pruning_witness :
  ∃ t, timestamp_parses last_A t
       ∧ now_A - timedelta_hours 24 < t
       ∧ is_new_day (Some last_A) now_A = bool_decide (date_of now_A ≠ date_of t).
Proof.
  apply (new_day_after_pruning [last_B; last_A] now_A now_A last_A).
  by vm_compute.
Defined.

Lemma stale_history_cold_start_witness :
  main [last_B; last_A] now_late now_late None
  = Ok [mk_entry (VStr "2024-06-03 23:59") (VNum 0%Qc) (VNum 0%Qc) (VNum 0%Qc)]
  ∧ main [last_B; last_A] now_late now_late (Some sample_A) = Ok [sample_A].
Proof.
  assert (Forall (λ e, ¬ in_window now_late e) [last_B; last_A]) as Hstale.
  { apply (proj1 (prune_old_entries_drops_all now_late [last_B; last_A])).
    by vm_compute. }
  destruct (stale_history_cold_start [last_B; last_A] now_late now_late Hstale)
    as [Hnone Hsome].
  split; [exact Hnone|].
  exact (Hsome "2024-06-02 00:02"%string 5 (hundredths 10) (hundredths 450)).
Defined.

Lemma main_total_witness :
  ∃ history', main [last_bare] now_B now_B (Some sample_B) = Ok history'.
Proof.
  apply (main_total [last_bare] now_B now_B (Some sample_B)).
  - constructor; [|constructor]. intros v Hv. vm_compute in Hv. discriminate Hv.
  - right. by exists "2024-06-01 21:45"%string, 0, 0%Qc, (hundredths 449).
Defined.

Lemma main_preserves_complete_witness :
  ∃ e, main [last_A] now_A now_A (Some sample_A)
       = Ok (prune_old_entries now_A [last_A] ++ [e])
       ∧ complete e
       ∧ Forall complete (prune_old_entries now_A [last_A] ++ [e]).
Proof.
  apply (main_preserves_complete [last_A] now_A now_A (Some sample_A)).
  - constructor; [|constructor]. by eexists _, _, _, _.
  - right. by exists "2024-06-02 00:02"%string, 5, (hundredths 10), (hundredths 450).
Defined.

Lemma sample_timestamp_power_kept_witness :
  dtu_result "2024-06-02 00:02" 5 0%Qc (hundredths 450) !! "timestamp"
  = Some (VStr "2024-06-02 00:02")
  ∧ dtu_result "2024-06-02 00:02" 5 0%Qc (hundredths 450) !! "power"
    = Some (VNum (Qc_of_Z 5)).
Proof.
  apply (sample_timestamp_power_kept "2024-06-02 00:02" 5 (hundredths 10)
           (hundredths 450) (Some last_A) true now_A).
  by vm_compute.
Defined.

Lemma appended_entry_keys_witness :
  dom (dtu_result "2024-06-01 21:45" 0 0%Qc (hundredths 449)) = entry_keys.
Proof.
  apply (appended_entry_keys (Some sample_B) (Some last_bare) false now_B).
  - right. by exists "2024-06-01 21:45"%string, 0, 0%Qc, (hundredths 449).
  - by vm_compute.
Defined.

Lemma energies_not_invented_witness :
  ∃ tv, dtu_result "2024-06-01 21:45" 0 (hundredths 1230) (hundredths 450)
          !! "energy_total" = Some tv
        ∧ (tv = VNum 0%Qc
           ∨ (∃ le, Some last_B = Some le ∧ le !! "energy_total" = Some tv)
           ∨ (∃ ts p d t, Some sample_B = Some (dtu_result ts p d t) ∧ tv = VNum t)).
Proof.
  apply (energies_not_invented (Some sample_B) (Some last_B) false now_B).
  - right. by exists "2024-06-01 21:45"%string, 0, 0%Qc, (hundredths 449).
  - by vm_compute.
Defined.

Lemma sample_recorded_verbatim_witness :
  reconcile (Some sample_dip) (Some last_dip) false now_dip = Ok sample_dip.
Proof.
  apply (sample_recorded_verbatim "2024-06-01 12:05" 5 (hundredths 810)
           (hundredths 449) (Some last_dip) now_dip).
  left. discriminate.
Defined.

Lemma night_fallback_closed_form_witness :
  reconcile (Some sample_B) (Some last_B) false now_B
  = Ok (mk_entry (VStr "2024-06-01 21:45") (VNum 0%Qc)
          (if bool_decide (0%Qc = 0%Qc)
           then VNum (hundredths 1230) else VNum 0%Qc)
          (VNum (if bool_decide (hundredths 449 < hundredths 450)%Qc
                 then hundredths 450 else hundredths 449))).
Proof.
  apply (night_fallback_closed_form "2024-06-01 21:45" 0%Qc (hundredths 449)
           (hundredths 450) (VNum (hundredths 1230)) last_B now_B); reflexivity.
Defined.

Lemma non_numeric_total_raises_witness :
  main [last_text_total] now_B now_B (Some sample_B) = Raise TypeError.
Proof.
  assert (¬ is_num (VStr "3.2")) as Hstr by (intros [q Hq]; discriminate Hq).
  apply (proj2 (non_numeric_total_raises "2024-06-01 21:45" 0%Qc (hundredths 449)
                  last_text_total (VStr "3.2") now_B eq_refl Hstr)
           [last_text_total] now_B); by vm_compute.
Defined.

Lemma no_reset_without_new_day_witness :
  ∃ ts p t, Some sample_dawn = Some (dtu_result ts p 0%Qc t) ∧ p ≠ 0.
Proof.
  apply (no_reset_without_new_day (Some sample_dawn) last_B (hundredths 1230)
           now_B sample_dawn).
  - right. by exists "2024-06-01 21:45"%string, 12, 0%Qc, (hundredths 450).
  - reflexivity.
  - intros Hq. apply (f_equal this) in Hq. vm_compute in Hq. discriminate Hq.
  - by vm_compute.
  - reflexivity.
Defined.

End AtCases.
